(** * FloatingSearch: the interaction state machine of the floating search widget

    Shallow embedding of [src/components/FloatingSearch.tsx].

    The component owns five pieces of React state and six pieces of code that
    change them: the document [mousedown] listener, the asynchronous form
    handler [handleSubmit], and the [onClick]/[onChange] closures of the
    expand button, the scope button, the scope options and the text input.
    Each of them is embedded as a function on the state record.  A handler
    runs against the state of the latest render, and the setter calls of one
    run are taken as one transition: React commits the updates of an event
    handler together and renders before the next event is dispatched.  (The
    setters of the [finally] block run outside an event handler; the states
    between them are looked at in [submitFinally_stepwise].)  The effect that
    focuses the input when [isExpanded] becomes true changes no state and is
    left out, and so are the icons, labels and class names.

    [handleSubmit] is an [async] function: it suspends at
    [await onSearch(query)] and its [finally] block runs when the awaited
    value settles.  It is embedded as two transitions, the part up to the
    [await] and the resumption, with the calls made to the injected
    [onSearch] recorded in a log and the promise returned to the caller made
    explicit. *)

From Stdlib Require Import List PeanoNat NArith Bool String Ascii Lia.
Import ListNotations.

Module FloatingSearch.

(** ** JavaScript strings *)

(** A JavaScript string is a sequence of UTF-16 code units. *)
Definition jsstring := list N.

(** A string literal of the source (ASCII only). *)
Definition lit (s : string) : jsstring :=
  map N_of_ascii (list_ascii_of_string s).

(** ECMAScript [WhiteSpace] and [LineTerminator] code points, the ones
    [String.prototype.trim] strips.  All of them are in the Basic
    Multilingual Plane, so each is a single code unit. *)
Definition isWhiteSpace (c : N) : bool :=
  ((9 <=? c) && (c <=? 13)            (* TAB, LF, VT, FF, CR *)
   || (c =? 32)                       (* SPACE *)
   || (c =? 160)                      (* NO-BREAK SPACE *)
   || (c =? 5760)                     (* U+1680 *)
   || (8192 <=? c) && (c <=? 8202)    (* U+2000 .. U+200A *)
   || (c =? 8232) || (c =? 8233)      (* LINE / PARAGRAPH SEPARATOR *)
   || (c =? 8239)                     (* U+202F *)
   || (c =? 8287)                     (* U+205F *)
   || (c =? 12288)                    (* U+3000 *)
   || (c =? 65279))%N.                (* U+FEFF *)

Fixpoint trimStart (s : jsstring) : jsstring :=
  match s with
  | [] => []
  | c :: t => if isWhiteSpace c then trimStart t else s
  end.

Definition trimEnd (s : jsstring) : jsstring :=
  rev (trimStart (rev s)).

(** [s.trim()] *)
Definition trim (s : jsstring) : jsstring :=
  trimEnd (trimStart s).

(** Truthiness of a string: every string but the empty one. *)
Definition truthy (s : jsstring) : bool :=
  match s with
  | [] => false
  | _ :: _ => true
  end.

(** [s.toUpperCase()].  The only receivers in the component are the three
    scope literals, which are lower-case ASCII; on the letters a..z the
    Unicode upper-case mapping subtracts 32. *)
Definition upperUnit (c : N) : N :=
  if ((97 <=? c) && (c <=? 122))%N then (c - 32)%N else c.

Definition toUpperCase (s : jsstring) : jsstring :=
  map upperUnit s.

(** ** Component state *)

(** The union type ['all' | 'domain' | 'page']. *)
Inductive SearchScope : Type :=
| all
| domain
| page.

(** The string a scope value is at run time. *)
Definition scopeString (sc : SearchScope) : jsstring :=
  match sc with
  | all => lit "all"
  | domain => lit "domain"
  | page => lit "page"
  end.

(** The five [useState] cells. *)
Record State : Type := mkState {
  isExpanded : bool;
  searchQuery : jsstring;
  searchScope : SearchScope;
  showScopeMenu : bool;
  isLoading : bool
}.

(** The initial values passed to [useState]. *)
Definition initialState : State :=
  {| isExpanded := false;
     searchQuery := [];
     searchScope := page;
     showScopeMenu := false;
     isLoading := false |}.

Definition setIsExpanded (b : bool) (s : State) : State :=
  {| isExpanded := b;
     searchQuery := searchQuery s;
     searchScope := searchScope s;
     showScopeMenu := showScopeMenu s;
     isLoading := isLoading s |}.

Definition setSearchQuery (q : jsstring) (s : State) : State :=
  {| isExpanded := isExpanded s;
     searchQuery := q;
     searchScope := searchScope s;
     showScopeMenu := showScopeMenu s;
     isLoading := isLoading s |}.

Definition setSearchScope (sc : SearchScope) (s : State) : State :=
  {| isExpanded := isExpanded s;
     searchQuery := searchQuery s;
     searchScope := sc;
     showScopeMenu := showScopeMenu s;
     isLoading := isLoading s |}.

Definition setShowScopeMenu (b : bool) (s : State) : State :=
  {| isExpanded := isExpanded s;
     searchQuery := searchQuery s;
     searchScope := searchScope s;
     showScopeMenu := b;
     isLoading := isLoading s |}.

Definition setIsLoading (b : bool) (s : State) : State :=
  {| isExpanded := isExpanded s;
     searchQuery := searchQuery s;
     searchScope := searchScope s;
     showScopeMenu := showScopeMenu s;
     isLoading := b |}.

(** ** The document [mousedown] listener *)

(** A DOM node, and the container [div] with its [contains] method. *)
Definition Node := nat.

Record HTMLDivElement : Type := mkDiv {
  contains : Node -> bool
}.

(** [handleClickOutside]: [current] is [searchContainerRef.current]
    ([None] for [null], when nothing is rendered) and [target] is
    [event.target]. *)
Definition handleClickOutside
    (current : option HTMLDivElement) (target : Node) (s : State) : State :=
  match current with
  | None => s
  | Some el =>
      if negb (contains el target) && negb (isLoading s)
      then setShowScopeMenu false (setIsExpanded false s)
      else s
  end.

(** ** The button and input closures *)

(** [onClick] of the expand button. *)
Definition onClickExpand (s : State) : State :=
  if negb (isLoading s)
  then setShowScopeMenu false (setIsExpanded (negb (isExpanded s)) s)
  else s.

(** [onClick] of the scope button:
    [!isLoading && setShowScopeMenu(!showScopeMenu)]. *)
Definition onClickScopeButton (s : State) : State :=
  if negb (isLoading s)
  then setShowScopeMenu (negb (showScopeMenu s)) s
  else s.

(** [onClick] of the option [scope] of the scope menu. *)
Definition onClickScopeOption (scope : SearchScope) (s : State) : State :=
  setShowScopeMenu false (setSearchScope scope s).

(** [onChange] of the text input, with [value] for [e.target.value]. *)
Definition onChangeInput (value : jsstring) (s : State) : State :=
  setSearchQuery value s.

(** ** [handleSubmit] *)

(** How a call [onSearch(query)] completes: it throws, or it returns a value
    (a promise or anything else) that is then awaited. *)
Inductive Completion (E : Type) : Type :=
| Throws (e : E)
| Returns.
Arguments Throws {E} e.
Arguments Returns {E}.

(** How an awaited value, or the promise of an async function, settles. *)
Inductive Outcome (E : Type) : Type :=
| Fulfilled
| Rejected (e : E).
Arguments Fulfilled {E}.
Arguments Rejected {E} e.

(** The promise an async function hands to its caller. *)
Inductive Promise (E : Type) : Type :=
| Settled (o : Outcome E)
| Pending.
Arguments Settled {E} o.
Arguments Pending {E}.

(** The component instance: the React state, the arguments [onSearch] has
    been called with (oldest first), and the number of [handleSubmit]
    activations suspended at the [await]. *)
Record Widget : Type := mkWidget {
  state : State;
  calls : list jsstring;
  awaiting : nat
}.

Definition mount : Widget :=
  {| state := initialState; calls := []; awaiting := 0 |}.

(** The template literal [`[${searchScope.toUpperCase()}] ${searchQuery}`]. *)
Definition effectiveQuery (s : State) : jsstring :=
  lit "[" ++ toUpperCase (scopeString (searchScope s)) ++ lit "] "
    ++ searchQuery s.

(** The [finally] block. *)
Definition submitFinally (s : State) : State :=
  setIsExpanded false (setSearchQuery [] (setIsLoading false s)).

(** [handleSubmit] up to its first suspension.  [onSearch] is the injected
    prop.  The result is the component afterwards and the promise returned
    to the caller. *)
Definition handleSubmit {E : Type}
    (onSearch : jsstring -> Completion E) (w : Widget) : Widget * Promise E :=
  let s := state w in
  if negb (truthy (trim (searchQuery s))) || isLoading s
  then (w, Settled Fulfilled)
  else
    let s1 := setShowScopeMenu false (setIsLoading true s) in
    let query := effectiveQuery s in
    match onSearch query with
    | Throws e =>
        ({| state := submitFinally s1;
            calls := calls w ++ [query];
            awaiting := awaiting w |},
         Settled (Rejected e))
    | Returns =>
        ({| state := s1;
            calls := calls w ++ [query];
            awaiting := S (awaiting w) |},
         Pending)
    end.

(** The awaited value settles with [o]: a suspended activation of
    [handleSubmit] runs its [finally] block and then completes the same way,
    which settles the promise it returned.  With no activation suspended
    there is nothing to resume. *)
Definition resumeSubmit {E : Type}
    (o : Outcome E) (w : Widget) : Widget * option (Outcome E) :=
  match awaiting w with
  | O => (w, None)
  | S n =>
      ({| state := submitFinally (state w);
          calls := calls w;
          awaiting := n |},
       Some o)
  end.

(** ** Operations and runs *)

(** What can happen to a mounted component: the five user interactions, a
    [mousedown] somewhere in the document, and the settling of the value a
    suspended [handleSubmit] is awaiting. *)
Inductive Op (E : Type) : Type :=
| toggleExpand                                   (* click on the expand button *)
| toggleScopeMenu                                (* click on the scope button *)
| selectScope (scope : SearchScope)              (* click on a scope option *)
| changeQuery (value : jsstring)                 (* typing in the input *)
| submit (onSearch : jsstring -> Completion E)   (* submit event of the form *)
| pointerDown (current : option HTMLDivElement) (target : Node)
                                                 (* mousedown in the document *)
| settle (o : Outcome E).                        (* the awaited value settles *)
Arguments toggleExpand {E}.
Arguments toggleScopeMenu {E}.
Arguments selectScope {E} scope.
Arguments changeQuery {E} value.
Arguments submit {E} onSearch.
Arguments pointerDown {E} current target.
Arguments settle {E} o.

(** A handler that only touches the React state. *)
Definition onState (f : State -> State) (w : Widget) : Widget :=
  {| state := f (state w); calls := calls w; awaiting := awaiting w |}.

(** The handler of each operation, run on the component. *)
Definition step {E : Type} (w : Widget) (op : Op E) : Widget :=
  match op with
  | toggleExpand => onState onClickExpand w
  | toggleScopeMenu => onState onClickScopeButton w
  | selectScope scope => onState (onClickScopeOption scope) w
  | changeQuery value => onState (onChangeInput value) w
  | submit onSearch => fst (handleSubmit onSearch w)
  | pointerDown current target => onState (handleClickOutside current target) w
  | settle o => fst (resumeSubmit o w)
  end.

Definition run {E : Type} (w : Widget) (ops : list (Op E)) : Widget :=
  fold_left step ops w.

(** ** What the rendered document lets through *)

(** The scope menu is in the document under [showScopeMenu && !isLoading]. *)
Definition menuRendered (s : State) : bool :=
  showScopeMenu s && negb (isLoading s).

(** [disabled={isLoading}] on the two buttons and on the input. *)
Definition controlsDisabled (s : State) : bool :=
  isLoading s.

(** Whether the document rendered from [s] under the prop [isSummarized] can
    deliver [op] to its handler.  With [isSummarized] false the component
    returns [null]: there is no form, no button, no input, and the container
    ref is [null].  A disabled control is not clicked or typed into.  The
    [mousedown] listener is on the document and a suspended [handleSubmit]
    resumes whatever is rendered. *)
Definition deliverable {E : Type}
    (isSummarized : bool) (s : State) (op : Op E) : bool :=
  match op with
  | toggleExpand => isSummarized && negb (controlsDisabled s)
  | toggleScopeMenu => isSummarized && negb (controlsDisabled s)
  | selectScope _ => isSummarized && menuRendered s
  | changeQuery _ => isSummarized && negb (controlsDisabled s)
  | submit _ => isSummarized
  | pointerDown current _ =>
      match current with
      | Some _ => isSummarized
      | None => negb isSummarized
      end
  | settle _ => true
  end.

(** An operation attempted through the rendered document. *)
Definition interact {E : Type}
    (w : Widget) (ev : bool * Op E) : Widget :=
  if deliverable (fst ev) (state w) (snd ev) then step w (snd ev) else w.

Definition interactAll {E : Type}
    (w : Widget) (evs : list (bool * Op E)) : Widget :=
  fold_left interact evs w.

Definition isSettle {E : Type} (op : Op E) : bool :=
  match op with
  | settle _ => true
  | _ => false
  end.

(** ** The format the host is told to expect *)

(** The upper-cased scope tags, written out. *)
Definition scopeTag (sc : SearchScope) : jsstring :=
  match sc with
  | all => lit "ALL"
  | domain => lit "DOMAIN"
  | page => lit "PAGE"
  end.

(** [[<SCOPE>] <raw query>] *)
Definition taggedQuery (sc : SearchScope) (raw : jsstring) : jsstring :=
  lit "[" ++ scopeTag sc ++ lit "] " ++ raw.

(** The state left by a finished submission cycle that started with scope
    [sc]. *)
Definition cleanedUp (sc : SearchScope) : State :=
  {| isExpanded := false;
     searchQuery := [];
     searchScope := sc;
     showScopeMenu := false;
     isLoading := false |}.

(** ** Invariants *)

(** A loading widget has its scope menu closed. *)
Definition menuClosedWhileLoading (w : Widget) : Prop :=
  isLoading (state w) = true -> showScopeMenu (state w) = false.

(** ** Runs in which the scope button is used only while expanded *)

Definition expandedWhenToggled {E : Type} (w : Widget) (op : Op E) : Prop :=
  match op with
  | toggleScopeMenu => isExpanded (state w) = true
  | _ => True
  end.

Fixpoint scopeButtonOnlyExpanded {E : Type}
    (w : Widget) (ops : list (Op E)) : Prop :=
  match ops with
  | [] => True
  | op :: rest =>
      expandedWhenToggled w op /\ scopeButtonOnlyExpanded (step w op) rest
  end.

(** The invariant of those runs. *)
Record consistent (w : Widget) : Prop := mkConsistent {
  loading_closes_menu :
    isLoading (state w) = true -> showScopeMenu (state w) = false;
  collapsed_closes_menu :
    isExpanded (state w) = false -> showScopeMenu (state w) = false;
  awaiting_is_loading :
    awaiting w = if isLoading (state w) then 1 else 0
}.

(** ** The scope menu as rendered *)

(** [Object.keys(scopeIcons)]: the keys of the object literal, in the order
    they are written. *)
Definition scopeKeys : list SearchScope := [all; domain; page].

(** [searchScope === scope] *)
Definition scopeEq (a b : SearchScope) : bool :=
  match a, b with
  | all, all | domain, domain | page, page => true
  | _, _ => false
  end.

(** The option buttons the [map] over the keys produces: the scope each one
    selects and whether it carries the highlight classes. *)
Definition menuOptions (s : State) : list (SearchScope * bool) :=
  map (fun scope => (scope, scopeEq (searchScope s) scope)) scopeKeys.

(** The scope menu of the render of [s], if there is one. *)
Definition scopeMenu (s : State) : option (list (SearchScope * bool)) :=
  if showScopeMenu s && negb (isLoading s) then Some (menuOptions s) else None.

(** ** The two effects *)

(** A [handleClickOutside] closure.  Every run of the listener effect makes
    a new function, told apart here by the number of the render that made
    it; [capturedLoading] is the [isLoading] that render closed over. *)
Record Listener : Type := mkListener {
  listenerId : nat;
  capturedLoading : bool
}.

Definition sameListener (a b : Listener) : bool :=
  Nat.eqb (listenerId a) (listenerId b).

(** [document.addEventListener('mousedown', l)]: a function that is already
    registered is not registered again. *)
Definition addEventListener
    (l : Listener) (registered : list Listener) : list Listener :=
  if existsb (sameListener l) registered then registered
  else registered ++ [l].

(** [document.removeEventListener('mousedown', l)] *)
Definition removeEventListener
    (l : Listener) (registered : list Listener) : list Listener :=
  filter (fun x => negb (sameListener l x)) registered.

(** The body of [handleClickOutside] as the closure [l] runs it: the test is
    on the [isLoading] it closed over, the setters act on the current
    state. *)
Definition callListener (l : Listener)
    (current : option HTMLDivElement) (target : Node) (s : State) : State :=
  match current with
  | None => s
  | Some el =>
      if negb (contains el target) && negb (capturedLoading l)
      then setShowScopeMenu false (setIsExpanded false s)
      else s
  end.

(** A [mousedown] event: the registered listeners run in order. *)
Definition dispatchMousedown (registered : list Listener)
    (current : option HTMLDivElement) (target : Node) (s : State) : State :=
  fold_left (fun s' l => callListener l current target s') registered s.

(** A mounted component with what its effects have done: the prop of the
    latest render, the number of that render, the [mousedown] listeners it
    has on the document, the closure its pending cleanup removes, the
    dependency values the effects last ran with, and the number of calls of
    [inputRef.current.focus()]. *)
Record Instance : Type := mkInstance {
  widget : Widget;
  isSummarizedProp : bool;
  renders : nat;
  listeners : list Listener;
  cleanup : Listener;
  depLoading : bool;
  depExpanded : bool;
  focusCalls : nat
}.

(** The effect with dependencies [[isLoading]], run after render [n]: it
    registers a new closure and returns the cleanup that removes it. *)
Definition listenerEffect (n : nat) (s : State) (registered : list Listener)
    : list Listener * Listener :=
  let handler := {| listenerId := n; capturedLoading := isLoading s |} in
  (addEventListener handler registered, handler).

(** The effect with dependencies [[isExpanded]]:
    [if (isExpanded && inputRef.current) inputRef.current.focus()].  The ref
    of the input is set exactly when the render returned the form. *)
Definition focusEffect (inputRendered : bool) (s : State) (n : nat) : nat :=
  if isExpanded s && inputRendered then S n else n.

(** The first render and its effects. *)
Definition mountInstance (isSummarized : bool) : Instance :=
  let (registered, handler) := listenerEffect 0 initialState [] in
  {| widget := mount;
     isSummarizedProp := isSummarized;
     renders := 0;
     listeners := registered;
     cleanup := handler;
     depLoading := isLoading initialState;
     depExpanded := isExpanded initialState;
     focusCalls := focusEffect isSummarized initialState 0 |}.

(** A later render, of the component [w'] under the prop [isSummarized],
    and its effects: an effect runs when its dependency differs from the one
    it last ran with, after the cleanup it returned then.  The effects of a
    render are taken to have run before the next event is handled. *)
Definition commit (i : Instance) (w' : Widget) (isSummarized : bool)
    : Instance :=
  let n := S (renders i) in
  let s' := state w' in
  let loadingChanged := negb (Bool.eqb (depLoading i) (isLoading s')) in
  let expandedChanged := negb (Bool.eqb (depExpanded i) (isExpanded s')) in
  let (registered, handler) :=
    if loadingChanged
    then listenerEffect n s' (removeEventListener (cleanup i) (listeners i))
    else (listeners i, cleanup i) in
  {| widget := w';
     isSummarizedProp := isSummarized;
     renders := n;
     listeners := registered;
     cleanup := handler;
     depLoading := isLoading s';
     depExpanded := isExpanded s';
     focusCalls :=
       if expandedChanged
       then focusEffect isSummarized s' (focusCalls i)
       else focusCalls i |}.

(** Unmounting runs the pending cleanup. *)
Definition unmountInstance (i : Instance) : list Listener :=
  removeEventListener (cleanup i) (listeners i).

(** What happens to an instance: an operation attempted on the rendered
    document, or a render with a new value of the prop. *)
Inductive Event (E : Type) : Type :=
| interaction (op : Op E)
| rerender (isSummarized : bool).
Arguments interaction {E} op.
Arguments rerender {E} isSummarized.

(** The component after [op]: a [mousedown] goes to the closures that are
    registered, everything else to the handler of the latest render. *)
Definition deliver {E : Type} (i : Instance) (op : Op E) : Widget :=
  match op with
  | pointerDown current target =>
      if deliverable (isSummarizedProp i) (state (widget i)) op
      then onState (dispatchMousedown (listeners i) current target) (widget i)
      else widget i
  | _ => interact (widget i) (isSummarizedProp i, op)
  end.

Definition handleEvent {E : Type} (i : Instance) (ev : Event E) : Instance :=
  match ev with
  | interaction op => commit i (deliver i op) (isSummarizedProp i)
  | rerender isSummarized => commit i (widget i) isSummarized
  end.

Definition runInstance {E : Type} (i : Instance) (evs : list (Event E))
    : Instance :=
  fold_left handleEvent evs i.

(** The effects are up to date with the state. *)
Record wired (i : Instance) : Prop := mkWired {
  one_listener : listeners i = [cleanup i];
  listener_fresh : capturedLoading (cleanup i) = isLoading (state (widget i));
  dep_loading : depLoading i = isLoading (state (widget i));
  dep_expanded : depExpanded i = isExpanded (state (widget i))
}.

(** ** The call log *)

Definition isSubmit {E : Type} (op : Op E) : bool :=
  match op with
  | submit _ => true
  | _ => false
  end.

Definition isSelectScope {E : Type} (op : Op E) : bool :=
  match op with
  | selectScope _ => true
  | _ => false
  end.

(** A string of the form [[<SCOPE>] <raw query>] whose raw query does not
    trim to the empty string. *)
Definition wellTagged (c : jsstring) : Prop :=
  exists (sc : SearchScope) (raw : jsstring),
    c = taggedQuery sc raw /\ trim raw <> [].

(** One activation of [handleSubmit] at most is suspended, and one is
    exactly while [isLoading] is true. *)
Definition inFlightIsLoading (w : Widget) : Prop :=
  awaiting w = if isLoading (state w) then 1 else 0.

(** While loading, the last call made is the one for the scope and query
    the state holds. *)
Definition showsWhatWasSent (w : Widget) : Prop :=
  isLoading (state w) = true ->
  exists earlier : list jsstring,
    calls w = earlier ++ [effectiveQuery (state w)].

(** * Properties *)

(** ** Strings *)

Lemma truthy_true_iff (s : jsstring) : truthy s = true <-> s <> [].
Proof.
  destruct s as [|c t]; simpl; split; intro H;
    try reflexivity; try discriminate; congruence.
Qed.

Lemma truthy_false_iff (s : jsstring) : truthy s = false <-> s = [].
Proof.
  destruct s as [|c t]; simpl; split; intro H;
    try reflexivity; discriminate.
Qed.

Lemma toUpperCase_scopeString (sc : SearchScope) :
  toUpperCase (scopeString sc) = scopeTag sc.
Proof. destruct sc; reflexivity. Qed.

Lemma effectiveQuery_tagged (s : State) :
  effectiveQuery s = taggedQuery (searchScope s) (searchQuery s).
Proof.
  unfold effectiveQuery, taggedQuery.
  now rewrite toUpperCase_scopeString.
Qed.

(** ** The two ways through [handleSubmit] *)

Lemma handleSubmit_blank {E : Type}
    (onSearch : jsstring -> Completion E) (w : Widget) :
  trim (searchQuery (state w)) = [] ->
  handleSubmit onSearch w = (w, Settled Fulfilled).
Proof.
  intro Hblank. unfold handleSubmit.
  now rewrite Hblank.
Qed.

Lemma handleSubmit_loading {E : Type}
    (onSearch : jsstring -> Completion E) (w : Widget) :
  isLoading (state w) = true ->
  handleSubmit onSearch w = (w, Settled Fulfilled).
Proof.
  intro Hload. unfold handleSubmit.
  rewrite Hload. now rewrite orb_true_r.
Qed.

Lemma handleSubmit_accepted {E : Type}
    (onSearch : jsstring -> Completion E) (w : Widget) :
  trim (searchQuery (state w)) <> [] ->
  isLoading (state w) = false ->
  handleSubmit onSearch w =
    let q := taggedQuery (searchScope (state w)) (searchQuery (state w)) in
    match onSearch q with
    | Throws e =>
        ({| state := cleanedUp (searchScope (state w));
            calls := calls w ++ [q];
            awaiting := awaiting w |},
         Settled (Rejected e))
    | Returns =>
        ({| state :=
              {| isExpanded := isExpanded (state w);
                 searchQuery := searchQuery (state w);
                 searchScope := searchScope (state w);
                 showScopeMenu := false;
                 isLoading := true |};
            calls := calls w ++ [q];
            awaiting := S (awaiting w) |},
         Pending)
    end.
Proof.
  intros Hq Hload. unfold handleSubmit.
  apply truthy_true_iff in Hq. rewrite Hq, Hload. cbn [negb orb].
  rewrite effectiveQuery_tagged.
  cbv zeta. destruct (onSearch _); reflexivity.
Qed.

Lemma submitFinally_fields (s : State) :
  submitFinally s =
    {| isExpanded := false;
       searchQuery := [];
       searchScope := searchScope s;
       showScopeMenu := showScopeMenu s;
       isLoading := false |}.
Proof. reflexivity. Qed.

Lemma resumeSubmit_suspended {E : Type} (o : Outcome E) (w : Widget) (n : nat) :
  awaiting w = S n ->
  resumeSubmit o w =
    ({| state := submitFinally (state w); calls := calls w; awaiting := n |},
     Some o).
Proof.
  intro Hn. unfold resumeSubmit. now rewrite Hn.
Qed.

(** The three setters of the [finally] block one after the other: none of
    the states in between has a value of [showScopeMenu] or [searchScope]
    other than the one the block started with. *)
Lemma submitFinally_stepwise (s : State) :
  let s1 := setIsLoading false s in
  let s2 := setSearchQuery [] s1 in
  let s3 := setIsExpanded false s2 in
  s3 = submitFinally s /\
  Forall (fun x => showScopeMenu x = showScopeMenu s
                   /\ searchScope x = searchScope s) [s1; s2; s3].
Proof.
  cbv zeta. split; [reflexivity|].
  repeat constructor.
Qed.

(** ** C1: an accepted submission *)

(** C1.  When the trimmed query is not empty and [isLoading] is false,
    [handleSubmit] calls [onSearch] exactly once, with the raw query prefixed
    by the bracketed upper-case scope tag.  When that call returns, the state
    left by the handler has [isLoading] true and the scope menu closed, the
    caller holds a pending promise, and once the awaited value is fulfilled
    the widget is collapsed with an empty query and no further call made.
    (When the call throws, the [finally] block runs in the same handler run,
    on the state with [isLoading] set and the menu closed.) *)
Theorem submit_accepted_calls_tagged_query :
  forall (E : Type) (onSearch : jsstring -> Completion E) (w : Widget),
    trim (searchQuery (state w)) <> [] ->
    isLoading (state w) = false ->
    let q := taggedQuery (searchScope (state w)) (searchQuery (state w)) in
    let w1 := fst (handleSubmit onSearch w) in
    calls w1 = calls w ++ [q] /\
    (forall e : E,
       onSearch q = Throws e ->
       state w1
         = submitFinally (setShowScopeMenu false (setIsLoading true (state w)))) /\
    (onSearch q = Returns ->
     isLoading (state w1) = true /\
     showScopeMenu (state w1) = false /\
     isExpanded (state w1) = isExpanded (state w) /\
     searchQuery (state w1) = searchQuery (state w) /\
     searchScope (state w1) = searchScope (state w) /\
     snd (handleSubmit onSearch w) = Pending /\
     let w2 := fst (resumeSubmit (@Fulfilled E) w1) in
     isExpanded (state w2) = false /\
     showScopeMenu (state w2) = false /\
     isLoading (state w2) = false /\
     searchQuery (state w2) = [] /\
     calls w2 = calls w ++ [q] /\
     snd (resumeSubmit (@Fulfilled E) w1) = Some Fulfilled).
Proof.
  intros E onSearch w Hq Hload q w1.
  subst w1. rewrite (handleSubmit_accepted onSearch w Hq Hload).
  cbv zeta. fold q. split; [|split].
  - destruct (onSearch q); reflexivity.
  - intros e Hthrow. rewrite Hthrow. reflexivity.
  - intro Hret. rewrite Hret. cbn. repeat split.
Qed.

(** The happy path of the component: expand, type, submit with the default
    scope. *)
Lemma submit_accepted_weather_today :
  let w := run (E := nat) mount
             [toggleExpand; changeQuery (lit "weather today")] in
  let onSearch := fun _ : jsstring => @Returns nat in
  let w1 := fst (handleSubmit onSearch w) in
  let w2 := fst (resumeSubmit (@Fulfilled nat) w1) in
  (trim (searchQuery (state w)) <> [] /\ isLoading (state w) = false) /\
  calls w1 = [lit "[PAGE] weather today"] /\
  isLoading (state w1) = true /\
  showScopeMenu (state w1) = false /\
  state w2 = initialState /\
  calls w2 = [lit "[PAGE] weather today"].
Proof.
  intros w onSearch w1 w2.
  assert (Hq : trim (searchQuery (state w)) <> []) by (vm_compute; discriminate).
  assert (Hload : isLoading (state w) = false) by reflexivity.
  destruct (submit_accepted_calls_tagged_query nat onSearch w Hq Hload)
    as (Hcalls & _ & Hrest).
  destruct (Hrest eq_refl)
    as (H1 & H2 & _ & _ & _ & _ & _ & _ & _ & _ & H3 & _).
  split; [split; assumption|].
  split; [exact Hcalls|].
  split; [exact H1|].
  split; [exact H2|].
  split; [reflexivity|exact H3].
Defined.

(** The query goes out untrimmed, with the scope chosen in the menu. *)
Example submit_domain_raw_query :
  let w := run (E := nat) mount
             [toggleExpand; toggleScopeMenu; selectScope domain;
              changeQuery (lit "  two  words ")] in
  trim (searchQuery (state w)) = lit "two  words" /\
  calls (fst (handleSubmit (fun _ => @Returns nat) w))
    = [lit "[DOMAIN]   two  words "].
Proof. split; reflexivity. Qed.

(** ** C2: a failing submission *)

(** C2.  An accepted submission whose [onSearch] fails is cleaned up all the
    same and the failure reaches the caller.  When the call throws, the
    [finally] block has run by the time [handleSubmit] returns and the
    returned promise is rejected with the thrown value.  When the call
    returns and the awaited value is rejected, the resumption runs the
    [finally] block and completes with that same rejection. *)
Theorem submit_failure_cleans_up_and_propagates :
  forall (E : Type) (onSearch : jsstring -> Completion E) (w : Widget) (e : E),
    trim (searchQuery (state w)) <> [] ->
    isLoading (state w) = false ->
    let q := taggedQuery (searchScope (state w)) (searchQuery (state w)) in
    (onSearch q = Throws e ->
     let w1 := fst (handleSubmit onSearch w) in
     isLoading (state w1) = false /\
     searchQuery (state w1) = [] /\
     isExpanded (state w1) = false /\
     snd (handleSubmit onSearch w) = Settled (Rejected e)) /\
    (onSearch q = Returns ->
     let w1 := fst (handleSubmit onSearch w) in
     let w2 := fst (resumeSubmit (Rejected e) w1) in
     isLoading (state w2) = false /\
     searchQuery (state w2) = [] /\
     isExpanded (state w2) = false /\
     snd (resumeSubmit (Rejected e) w1) = Some (Rejected e)).
Proof.
  intros E onSearch w e Hq Hload q.
  rewrite (handleSubmit_accepted onSearch w Hq Hload).
  cbv zeta. fold q.
  split; intro Hres; rewrite Hres; cbn; repeat split.
Qed.

(** A submission that throws, and one whose awaited value is rejected. *)
Lemma submit_failure_witness :
  let w := run (E := nat) mount [toggleExpand; changeQuery (lit "recipe")] in
  let throwing := fun _ : jsstring => Throws 7 in
  let returning := fun _ : jsstring => @Returns nat in
  (trim (searchQuery (state w)) <> [] /\ isLoading (state w) = false) /\
  (state (fst (handleSubmit throwing w)) = initialState /\
   snd (handleSubmit throwing w) = Settled (Rejected 7)) /\
  (state (fst (resumeSubmit (Rejected 7) (fst (handleSubmit returning w))))
     = initialState /\
   snd (resumeSubmit (Rejected 7) (fst (handleSubmit returning w)))
     = Some (Rejected 7)).
Proof.
  intros w throwing returning.
  assert (Hq : trim (searchQuery (state w)) <> []) by (vm_compute; discriminate).
  assert (Hload : isLoading (state w) = false) by reflexivity.
  destruct (submit_failure_cleans_up_and_propagates nat throwing w 7 Hq Hload)
    as [Hthrow _].
  destruct (submit_failure_cleans_up_and_propagates nat returning w 7 Hq Hload)
    as [_ Hreject].
  destruct (Hthrow eq_refl) as (_ & _ & _ & Hp1).
  destruct (Hreject eq_refl) as (_ & _ & _ & Hp2).
  split; [split; assumption|].
  split; (split; [reflexivity|assumption]).
Defined.

(** ** C4: the empty-query guard *)

Lemma trim_empty : trim [] = [].
Proof. reflexivity. Qed.

Lemma trim_three_spaces : trim (lit "   ") = [].
Proof. reflexivity. Qed.

(** C4.  With a query that trims to the empty string, [handleSubmit] changes
    nothing: the component, with its call log, is the one it was given, so
    [isLoading] is what it was and [onSearch] has not been called; the
    caller gets a fulfilled promise. *)
Theorem submit_blank_query_is_noop :
  forall (E : Type) (onSearch : jsstring -> Completion E) (w : Widget),
    trim (searchQuery (state w)) = [] ->
    handleSubmit onSearch w = (w, Settled Fulfilled) /\
    calls (fst (handleSubmit onSearch w)) = calls w /\
    isLoading (state (fst (handleSubmit onSearch w))) = isLoading (state w).
Proof.
  intros E onSearch w Hblank.
  rewrite (handleSubmit_blank onSearch w Hblank).
  repeat split.
Qed.

(** The two queries of the guard, [""] and ["   "], on an [onSearch] that
    would throw if it were called. *)
Lemma submit_blank_query_witness :
  let throwing := fun _ : jsstring => Throws 0 in
  let w0 := run (E := nat) mount [toggleExpand] in
  let w3 := run (E := nat) mount [toggleExpand; changeQuery (lit "   ")] in
  (trim (searchQuery (state w0)) = [] /\
   handleSubmit throwing w0 = (w0, Settled Fulfilled) /\
   isLoading (state (fst (handleSubmit throwing w0))) = false) /\
  (trim (searchQuery (state w3)) = [] /\
   handleSubmit throwing w3 = (w3, Settled Fulfilled) /\
   isLoading (state (fst (handleSubmit throwing w3))) = false).
Proof.
  intros throwing w0 w3.
  assert (H0 : trim (searchQuery (state w0)) = []) by reflexivity.
  assert (H3 : trim (searchQuery (state w3)) = []) by reflexivity.
  destruct (submit_blank_query_is_noop nat throwing w0 H0) as (E0 & _ & L0).
  destruct (submit_blank_query_is_noop nat throwing w3 H3) as (E3 & _ & L3).
  split; (split; [assumption|split; [assumption|]]).
  - rewrite L0. reflexivity.
  - rewrite L3. reflexivity.
Defined.

(** ** C5: the double-submit guard *)

(** Two calls of [handleSubmit] in a row, whatever the first one's
    [onSearch] does, make one call: after a call that returns the widget is
    loading, after a call that throws the query is empty. *)
Lemma handleSubmit_twice_calls {E : Type}
    (first second : jsstring -> Completion E) (w : Widget) :
  trim (searchQuery (state w)) <> [] ->
  isLoading (state w) = false ->
  handleSubmit second (fst (handleSubmit first w))
    = (fst (handleSubmit first w), Settled Fulfilled).
Proof.
  intros Hq Hload.
  rewrite (handleSubmit_accepted first w Hq Hload). cbv zeta.
  destruct (first _) as [e|]; cbn [fst].
  - apply handleSubmit_blank. reflexivity.
  - apply handleSubmit_loading. reflexivity.
Qed.

(** C5.  While [isLoading] is true a call of [handleSubmit] changes nothing
    and calls nothing.  So two calls in a row, the first one accepted and in
    flight, call [onSearch] once: the log grows by the one tagged query. *)
Theorem submit_while_loading_is_noop :
  forall (E : Type) (w : Widget),
    (isLoading (state w) = true ->
     forall onSearch : jsstring -> Completion E,
       handleSubmit onSearch w = (w, Settled Fulfilled)) /\
    (trim (searchQuery (state w)) <> [] ->
     isLoading (state w) = false ->
     forall first second : jsstring -> Completion E,
       first (taggedQuery (searchScope (state w)) (searchQuery (state w)))
         = Returns ->
       let w1 := fst (handleSubmit first w) in
       let w2 := fst (handleSubmit second w1) in
       isLoading (state w1) = true /\
       w2 = w1 /\
       calls w2 =
         calls w
           ++ [taggedQuery (searchScope (state w)) (searchQuery (state w))]).
Proof.
  intros E w. split.
  - intros Hload onSearch. now apply handleSubmit_loading.
  - intros Hq Hload first second Hret w1 w2. subst w2 w1.
    rewrite (handleSubmit_twice_calls first second w Hq Hload). cbn [fst].
    rewrite (handleSubmit_accepted first w Hq Hload). cbv zeta.
    rewrite Hret. cbn. repeat split.
Qed.

(** Two submissions in a row on a widget holding the query ["recipe"]. *)
Lemma submit_while_loading_witness :
  let w := run (E := nat) mount [toggleExpand; changeQuery (lit "recipe")] in
  let returning := fun _ : jsstring => @Returns nat in
  let w1 := fst (handleSubmit returning w) in
  isLoading (state w1) = true /\
  handleSubmit returning w1 = (w1, Settled Fulfilled) /\
  calls (fst (handleSubmit returning w1)) = [lit "[PAGE] recipe"].
Proof.
  intros w returning w1.
  destruct (submit_while_loading_is_noop nat w) as [_ Htwice].
  destruct (submit_while_loading_is_noop nat w1) as [Hnoop _].
  assert (Hq : trim (searchQuery (state w)) <> []) by (vm_compute; discriminate).
  destruct (Htwice Hq eq_refl returning returning eq_refl) as (Hl & _ & Hc).
  split; [exact Hl|].
  split; [exact (Hnoop Hl returning)|exact Hc].
Defined.

(** ** C6 and C7: the [mousedown] listener *)

Lemma onState_fixed (f : State -> State) (w : Widget) :
  f (state w) = state w -> onState f w = w.
Proof.
  intro Hf. unfold onState. rewrite Hf. now destruct w.
Qed.

(** C6.  With the container rendered, the target outside it and [isLoading]
    false, the listener sets [isExpanded] and [showScopeMenu] to false and
    leaves the query, the scope and [isLoading] as they are. *)
Theorem outside_pointer_down_dismisses :
  forall (el : HTMLDivElement) (target : Node) (s : State),
    contains el target = false ->
    isLoading s = false ->
    handleClickOutside (Some el) target s =
      {| isExpanded := false;
         searchQuery := searchQuery s;
         searchScope := searchScope s;
         showScopeMenu := false;
         isLoading := false |}.
Proof.
  intros el target s Hout Hload.
  unfold handleClickOutside. rewrite Hout, Hload. cbn.
  unfold setShowScopeMenu, setIsExpanded. cbn. now rewrite Hload.
Qed.

(** Expanded with query ["abc"]; the container holds the nodes below 10 and
    the pointer goes down on node 42. *)
Lemma outside_pointer_down_abc :
  let el := {| contains := fun n => Nat.ltb n 10 |} in
  let s := {| isExpanded := true;
              searchQuery := lit "abc";
              searchScope := page;
              showScopeMenu := false;
              isLoading := false |} in
  (contains el 42 = false /\ isLoading s = false) /\
  handleClickOutside (Some el) 42 s =
    {| isExpanded := false;
       searchQuery := lit "abc";
       searchScope := page;
       showScopeMenu := false;
       isLoading := false |}.
Proof.
  intros el s.
  split; [split; reflexivity|].
  exact (outside_pointer_down_dismisses el 42 s eq_refl eq_refl).
Defined.

(** With nothing rendered the ref is [null] and the listener does nothing. *)
Lemma handleClickOutside_unrendered (target : Node) (s : State) :
  handleClickOutside None target s = s.
Proof. reflexivity. Qed.

(** A pointer-down inside the container does nothing either. *)
Lemma handleClickOutside_inside
    (el : HTMLDivElement) (target : Node) (s : State) :
  contains el target = true -> handleClickOutside (Some el) target s = s.
Proof.
  intro Hin. unfold handleClickOutside. now rewrite Hin.
Qed.

Lemma handleClickOutside_loading
    (current : option HTMLDivElement) (target : Node) (s : State) :
  isLoading s = true -> handleClickOutside current target s = s.
Proof.
  intro Hload. unfold handleClickOutside.
  destruct current as [el|]; [|reflexivity].
  rewrite Hload. now rewrite andb_false_r.
Qed.

(** C7.  While [isLoading] is true the listener changes nothing, wherever
    the pointer goes down and whether or not the container is rendered; any
    number of pointer-downs leave the component as it is, expanded and
    loading included. *)
Theorem outside_pointer_down_ignored_while_loading :
  forall (E : Type) (w : Widget),
    isLoading (state w) = true ->
    (forall current target,
       handleClickOutside current target (state w) = state w) /\
    (forall clicks : list (option HTMLDivElement * Node),
       run (E := E) w (map (fun c => pointerDown (fst c) (snd c)) clicks) = w).
Proof.
  intros E w Hload. split.
  - intros current target. now apply handleClickOutside_loading.
  - intro clicks. unfold run.
    induction clicks as [|c clicks IH]; [reflexivity|].
    cbn [map fold_left step].
    rewrite onState_fixed by now apply handleClickOutside_loading.
    exact IH.
Qed.

(** A submission in flight, then three pointer-downs outside the container. *)
Lemma outside_pointer_down_while_submitting :
  let el := {| contains := fun n => Nat.ltb n 10 |} in
  let w := run (E := nat) mount
             [toggleExpand; changeQuery (lit "abc");
              submit (fun _ => Returns)] in
  let w' := run (E := nat) w
              [pointerDown (Some el) 42; pointerDown (Some el) 11;
               pointerDown (Some el) 42] in
  isLoading (state w) = true /\
  w' = w /\
  isExpanded (state w') = true /\
  isLoading (state w') = true.
Proof.
  intros el w w'.
  assert (Hload : isLoading (state w) = true) by reflexivity.
  destruct (outside_pointer_down_ignored_while_loading nat w Hload)
    as [_ Hclicks].
  pose proof (Hclicks [(Some el, 42); (Some el, 11); (Some el, 42)]) as Hw.
  split; [exact Hload|].
  split; [exact Hw|].
  split; reflexivity.
Defined.

(** ** C8: interactions while loading *)

(** The two guarded closures. *)
Lemma onClickExpand_loading (s : State) :
  isLoading s = true -> onClickExpand s = s.
Proof. intro Hload. unfold onClickExpand. now rewrite Hload. Qed.

Lemma onClickScopeButton_loading (s : State) :
  isLoading s = true -> onClickScopeButton s = s.
Proof. intro Hload. unfold onClickScopeButton. now rewrite Hload. Qed.

(** While loading, nothing but the settling of the awaited value gets
    through the rendered document, and what does get to a handler is
    ignored by it. *)
Lemma interact_loading {E : Type}
    (w : Widget) (isSummarized : bool) (op : Op E) :
  isLoading (state w) = true ->
  isSettle op = false ->
  interact w (isSummarized, op) = w.
Proof.
  intros Hload Hop. unfold interact, deliverable, menuRendered, controlsDisabled.
  cbn [fst snd]. rewrite Hload.
  destruct op; try discriminate Hop; cbn [negb];
    rewrite ?andb_false_r; try reflexivity.
  - destruct isSummarized; [|reflexivity].
    cbn [step]. now rewrite handleSubmit_loading.
  - match goal with |- (if ?b then _ else _) = _ => destruct b end;
      [|reflexivity].
    cbn [step]. apply onState_fixed. now apply handleClickOutside_loading.
Qed.

Lemma interactAll_loading {E : Type}
    (w : Widget) (evs : list (bool * Op E)) :
  isLoading (state w) = true ->
  forallb (fun ev => negb (isSettle (snd ev))) evs = true ->
  interactAll w evs = w.
Proof.
  intros Hload. unfold interactAll.
  induction evs as [|[vis op] evs IH]; [reflexivity|].
  cbn [forallb fold_left snd]. intro Hall.
  apply andb_true_iff in Hall. destruct Hall as [Hop Hall].
  apply negb_true_iff in Hop.
  rewrite (interact_loading w vis op Hload Hop).
  now apply IH.
Qed.

(** C8.  While [isLoading] is true a click on the expand button, a click
    on the scope button and a click on a scope option each leave the whole
    component as it is, under either value of [isSummarized]: the closures
    of the two buttons test [isLoading] and leave the state alone, and the
    scope options are in the document only under
    [showScopeMenu && !isLoading], so none is there to click.  In
    particular the scope does not change. *)
Theorem interactions_ignored_while_loading :
  forall (E : Type) (w : Widget) (isSummarized : bool),
    isLoading (state w) = true ->
    interact (E := E) w (isSummarized, toggleExpand) = w /\
    interact (E := E) w (isSummarized, toggleScopeMenu) = w /\
    (forall scope : SearchScope,
       interact (E := E) w (isSummarized, selectScope scope) = w) /\
    onClickExpand (state w) = state w /\
    onClickScopeButton (state w) = state w /\
    menuRendered (state w) = false /\
    (forall scope : SearchScope,
       searchScope
         (state (interact (E := E) w (isSummarized, selectScope scope)))
         = searchScope (state w)).
Proof.
  intros E w vis Hload.
  assert (Hsel : forall scope : SearchScope,
             interact (E := E) w (vis, selectScope scope) = w)
    by (intro scope; now apply interact_loading).
  split; [now apply interact_loading|].
  split; [now apply interact_loading|].
  split; [exact Hsel|].
  split; [now apply onClickExpand_loading|].
  split; [now apply onClickScopeButton_loading|].
  split; [unfold menuRendered; rewrite Hload; apply andb_false_r|].
  intro scope. now rewrite Hsel.
Qed.

(** A submission in flight under scope [page]: clicks on the two buttons and
    on the option [all] leave the component, and scope [page], in place. *)
Lemma interactions_while_submitting :
  let w := run (E := nat) mount
             [toggleExpand; changeQuery (lit "abc");
              submit (fun _ => Returns)] in
  isLoading (state w) = true /\
  interact (E := nat) w (true, toggleExpand) = w /\
  interact (E := nat) w (true, toggleScopeMenu) = w /\
  interact (E := nat) w (true, selectScope all) = w /\
  searchScope (state (interact (E := nat) w (true, selectScope all))) = page.
Proof.
  intro w.
  assert (Hload : isLoading (state w) = true) by reflexivity.
  destruct (interactions_ignored_while_loading nat w true Hload)
    as (Hexp & Hbtn & Hsel & _ & _ & _ & Hscope).
  split; [exact Hload|].
  split; [exact Hexp|].
  split; [exact Hbtn|].
  split; [exact (Hsel all)|].
  exact (Hscope all).
Defined.

(** ** C3: loading excludes the scope menu *)

Lemma mount_menuClosedWhileLoading : menuClosedWhileLoading mount.
Proof. intro H. reflexivity. Qed.

(** Every handler keeps it, in whatever state it is run. *)
Lemma step_menuClosedWhileLoading {E : Type} (w : Widget) (op : Op E) :
  menuClosedWhileLoading w -> menuClosedWhileLoading (step w op).
Proof.
  unfold menuClosedWhileLoading. destruct w as [s cs n]. cbn [state].
  intro Hinv.
  destruct op as [| |scope|value|onSearch|current target|o]; cbn [step onState state].
  - unfold onClickExpand.
    destruct (isLoading s) eqn:Hl; cbn; [rewrite Hl; exact Hinv|].
    rewrite Hl. discriminate.
  - unfold onClickScopeButton.
    destruct (isLoading s) eqn:Hl; cbn; [rewrite Hl; exact Hinv|].
    rewrite Hl. discriminate.
  - reflexivity.
  - exact Hinv.
  - unfold handleSubmit. cbn [state calls awaiting].
    destruct (negb (truthy (trim (searchQuery s))) || isLoading s);
      [exact Hinv|].
    destruct (onSearch _); cbn; [discriminate|reflexivity].
  - unfold handleClickOutside. destruct current as [el|]; [|exact Hinv].
    destruct (negb (contains el target) && negb (isLoading s));
      [reflexivity|exact Hinv].
  - unfold resumeSubmit. cbn [awaiting].
    destruct n; cbn; [exact Hinv|discriminate].
Qed.

Lemma run_menuClosedWhileLoading {E : Type} (ops : list (Op E)) (w : Widget) :
  menuClosedWhileLoading w -> menuClosedWhileLoading (run w ops).
Proof.
  revert w. unfold run.
  induction ops as [|op ops IH]; intros w Hinv; [exact Hinv|].
  cbn [fold_left]. apply IH. now apply step_menuClosedWhileLoading.
Qed.

(** C3.  From the mounted component, after any number of steps of any run
    of operations, handlers called in any order and any state, [isLoading]
    true means [showScopeMenu] false. *)
Theorem loading_implies_menu_closed :
  forall (E : Type) (ops : list (Op E)) (n : nat),
    let s := state (run mount (firstn n ops)) in
    isLoading s = true -> showScopeMenu s = false.
Proof.
  intros E ops n s. subst s.
  apply (run_menuClosedWhileLoading (firstn n ops) mount).
  exact mount_menuClosedWhileLoading.
Qed.

(** The menu is open when the form is submitted; the state after the fourth
    operation is loading, with the menu closed. *)
Lemma loading_implies_menu_closed_witness :
  let ops := [toggleExpand; toggleScopeMenu; changeQuery (lit "recipe");
              submit (fun _ => @Returns nat); toggleScopeMenu;
              settle Fulfilled] in
  showScopeMenu (state (run mount (firstn 3 ops))) = true /\
  isLoading (state (run mount (firstn 4 ops))) = true /\
  showScopeMenu (state (run mount (firstn 4 ops))) = false.
Proof.
  intro ops.
  split; [reflexivity|].
  split; [reflexivity|].
  exact (loading_implies_menu_closed nat ops 4 eq_refl).
Defined.

(** ** C9: a collapsed widget and the scope menu *)

(** C9.  The invariant fails on the code.  The scope button is rendered,
    and enabled, while the widget is collapsed, and its closure tests
    [isLoading] only: one click on it from the mounted component, let
    through by the rendered document, leaves [isExpanded] false with
    [showScopeMenu] true, and the scope menu is in the next render. *)
Lemma scope_button_opens_menu_while_collapsed :
  let w := run (E := nat) mount [toggleScopeMenu] in
  deliverable (E := nat) true (state mount) toggleScopeMenu = true /\
  interactAll (E := nat) mount [(true, toggleScopeMenu)] = w /\
  isExpanded (state w) = false /\
  showScopeMenu (state w) = true /\
  menuRendered (state w) = true.
Proof.
  cbv zeta. repeat split.
Qed.

Lemma mount_consistent : consistent mount.
Proof. split; reflexivity. Qed.

Lemma step_consistent {E : Type} (w : Widget) (op : Op E) :
  consistent w -> expandedWhenToggled w op -> consistent (step w op).
Proof.
  destruct w as [s cs n]. intros [Hlm Hcm Haw] Hop.
  cbn [state awaiting] in Hlm, Hcm, Haw, Hop.
  destruct s as [ex q sc menu ld]. cbn in Hlm, Hcm, Haw, Hop.
  destruct op as [| |scope|value|onSearch|current target|o];
    cbn [step onState state calls awaiting].
  - unfold onClickExpand. cbn.
    destruct ld; cbn; split; cbn; auto.
  - unfold onClickScopeButton. cbn. cbn in Hop. subst ex.
    destruct ld; cbn; split; cbn; auto; discriminate.
  - split; cbn; auto.
  - split; cbn; auto.
  - unfold handleSubmit. cbn [state calls awaiting searchQuery isLoading].
    destruct (negb (truthy (trim q)) || ld) eqn:Hg; [split; cbn; auto|].
    apply orb_false_iff in Hg. destruct Hg as [_ Hld]. subst ld.
    destruct (onSearch _); cbn; split; cbn; auto.
  - unfold handleClickOutside. destruct current as [el|]; [|split; cbn; auto].
    destruct (contains el target), ld; cbn; split; cbn; auto.
  - unfold resumeSubmit. cbn [awaiting state calls].
    destruct n as [|n]; [split; cbn; auto|].
    destruct ld; [|discriminate Haw].
    injection Haw as Hn. subst n.
    split; cbn; auto.
Qed.

Lemma run_consistent {E : Type} (ops : list (Op E)) (n : nat) (w : Widget) :
  consistent w ->
  scopeButtonOnlyExpanded w ops ->
  consistent (run w (firstn n ops)).
Proof.
  revert n w. unfold run.
  induction ops as [|op ops IH]; intros n w Hinv Hops.
  - now rewrite firstn_nil.
  - destruct n as [|n]; [exact Hinv|].
    cbn [firstn fold_left]. destruct Hops as [Hop Hrest].
    apply IH; [now apply step_consistent|exact Hrest].
Qed.

(** The scope button is the one way to an open menu on a collapsed widget:
    every other handler that collapses also closes the menu.  In a run from
    the mounted component that has no click on the scope button of a
    collapsed widget, at every state [isExpanded] false means
    [showScopeMenu] false. *)
Theorem collapsed_implies_menu_closed :
  forall (E : Type) (ops : list (Op E)) (n : nat),
    scopeButtonOnlyExpanded mount ops ->
    let s := state (run mount (firstn n ops)) in
    isExpanded s = false -> showScopeMenu s = false.
Proof.
  intros E ops n Hops s. subst s.
  apply (collapsed_closes_menu _ (run_consistent ops n mount mount_consistent Hops)).
Qed.

(** The menu is opened while expanded and the widget is then collapsed, once
    by the expand button and once by a finished submission. *)
Lemma collapsed_implies_menu_closed_witness :
  let ops := [toggleExpand; toggleScopeMenu; toggleExpand;
              toggleExpand; toggleScopeMenu; changeQuery (lit "recipe");
              submit (fun _ => @Returns nat); settle Fulfilled] in
  scopeButtonOnlyExpanded mount ops /\
  showScopeMenu (state (run mount (firstn 2 ops))) = true /\
  (isExpanded (state (run mount (firstn 3 ops))) = false /\
   showScopeMenu (state (run mount (firstn 3 ops))) = false) /\
  (isExpanded (state (run mount (firstn 8 ops))) = false /\
   showScopeMenu (state (run mount (firstn 8 ops))) = false).
Proof.
  intro ops.
  assert (Hops : scopeButtonOnlyExpanded mount ops) by (cbn; tauto).
  split; [exact Hops|].
  split; [reflexivity|].
  split; (split; [reflexivity|]).
  - exact (collapsed_implies_menu_closed nat ops 3 Hops eq_refl).
  - exact (collapsed_implies_menu_closed nat ops 8 Hops eq_refl).
Defined.

(** ** C10: the scope across a submission cycle *)

(** C10.  The [finally] block leaves the scope alone.  So does the whole
    cycle of an accepted submission: when [onSearch] throws, the state
    [handleSubmit] leaves is the initial one but for the scope, which is the
    one the submission was accepted with; when it returns, the same holds
    once the awaited value has settled, fulfilled or rejected, whatever the
    user tried on the rendered document in between. *)
Theorem submission_cycle_keeps_scope :
  forall (E : Type) (onSearch : jsstring -> Completion E) (w : Widget),
    trim (searchQuery (state w)) <> [] ->
    isLoading (state w) = false ->
    let q := taggedQuery (searchScope (state w)) (searchQuery (state w)) in
    (forall s : State, searchScope (submitFinally s) = searchScope s) /\
    (forall e : E,
       onSearch q = Throws e ->
       state (fst (handleSubmit onSearch w))
         = cleanedUp (searchScope (state w))) /\
    (onSearch q = Returns ->
     forall (evs : list (bool * Op E)) (o : Outcome E),
       forallb (fun ev => negb (isSettle (snd ev))) evs = true ->
       let w1 := fst (handleSubmit onSearch w) in
       state (fst (resumeSubmit o (interactAll w1 evs)))
         = cleanedUp (searchScope (state w))).
Proof.
  intros E onSearch w Hq Hload q.
  split; [reflexivity|].
  rewrite (handleSubmit_accepted onSearch w Hq Hload). cbv zeta. fold q.
  split.
  - intros e Hres. now rewrite Hres.
  - intros Hres evs o Hevs. rewrite Hres. cbn [fst].
    rewrite interactAll_loading by (reflexivity || exact Hevs).
    reflexivity.
Qed.

(** Scope [all], a submission in flight, a click on the scope option
    [domain] and one on the expand button before the awaited value is
    rejected: the cycle ends collapsed, with scope [all]. *)
Lemma submission_cycle_keeps_scope_witness :
  let w := run (E := nat) mount
             [toggleExpand; toggleScopeMenu; selectScope all;
              changeQuery (lit "recipe")] in
  let returning := fun _ : jsstring => @Returns nat in
  let throwing := fun _ : jsstring => Throws 7 in
  let evs : list (bool * Op nat) :=
    [(true, selectScope domain); (true, toggleExpand)] in
  (trim (searchQuery (state w)) <> [] /\ isLoading (state w) = false) /\
  calls (fst (handleSubmit returning w)) = [lit "[ALL] recipe"] /\
  state (fst (resumeSubmit (Rejected 7)
                (interactAll (fst (handleSubmit returning w)) evs)))
    = cleanedUp all /\
  state (fst (handleSubmit throwing w)) = cleanedUp all.
Proof.
  intros w returning throwing evs.
  assert (Hq : trim (searchQuery (state w)) <> []) by (vm_compute; discriminate).
  assert (Hload : isLoading (state w) = false) by reflexivity.
  destruct (submission_cycle_keeps_scope nat returning w Hq Hload)
    as (_ & _ & Hret).
  destruct (submission_cycle_keeps_scope nat throwing w Hq Hload)
    as (_ & Hthrow & _).
  split; [split; assumption|].
  split; [reflexivity|].
  split; [exact (Hret eq_refl evs (Rejected 7) eq_refl)|].
  exact (Hthrow 7 eq_refl).
Defined.

(** * Further properties of the component *)

(** ** The button closures composed *)

(** X1.  Two clicks on the expand button of a widget that is not loading
    bring [isExpanded] back to what it was and leave the scope menu closed;
    nothing else changes. *)
Theorem expand_toggle_twice :
  forall s : State,
    isLoading s = false ->
    onClickExpand (onClickExpand s) = setShowScopeMenu false s.
Proof.
  intros [ex q sc menu ld] Hload. cbn in Hload. subst ld.
  unfold onClickExpand. cbn. unfold setShowScopeMenu, setIsExpanded. cbn.
  now rewrite negb_involutive.
Qed.

(** From the collapsed widget with the menu closed, the two clicks are a
    round trip. *)
Lemma expand_toggle_twice_witness :
  isLoading initialState = false /\
  onClickExpand (onClickExpand initialState) = initialState.
Proof.
  split; [reflexivity|].
  exact (expand_toggle_twice initialState eq_refl).
Defined.

(** X2.  Two clicks on the scope button undo each other in every state:
    while loading neither does anything, otherwise the menu flag is flipped
    twice. *)
Theorem scope_button_twice :
  forall s : State, onClickScopeButton (onClickScopeButton s) = s.
Proof.
  intros [ex q sc menu ld]. unfold onClickScopeButton.
  destruct ld; cbn; [reflexivity|].
  unfold setShowScopeMenu. cbn. now rewrite negb_involutive.
Qed.

(** ** The [mousedown] listener, in every case *)

Lemma handleClickOutside_effect
    (current : option HTMLDivElement) (target : Node) (s : State) :
  let s' := handleClickOutside current target s in
  searchQuery s' = searchQuery s /\
  searchScope s' = searchScope s /\
  isLoading s' = isLoading s /\
  (isExpanded s' = true -> isExpanded s = true) /\
  (showScopeMenu s' = true -> showScopeMenu s = true) /\
  handleClickOutside current target s' = s'.
Proof.
  unfold handleClickOutside.
  destruct current as [el|]; [|cbn; tauto].
  destruct (contains el target); cbn [negb andb]; [cbn; tauto|].
  destruct (isLoading s) eqn:Hload; cbn [negb].
  - rewrite Hload. cbn. tauto.
  - cbn. rewrite Hload. cbn. repeat split; discriminate.
Qed.

(** X3.  Whatever the ref, the target and the state, [handleClickOutside]
    keeps the query, the scope and [isLoading]; it never expands the widget
    and never opens the menu; and running it again changes nothing more. *)
Theorem handleClickOutside_only_closes :
  forall (current : option HTMLDivElement) (target : Node) (s : State),
    let s' := handleClickOutside current target s in
    searchQuery s' = searchQuery s /\
    searchScope s' = searchScope s /\
    isLoading s' = isLoading s /\
    (isExpanded s' = true -> isExpanded s = true) /\
    (showScopeMenu s' = true -> showScopeMenu s = true) /\
    handleClickOutside current target s' = s'.
Proof.
  intros current target s. apply handleClickOutside_effect.
Qed.

(** ** The guard of [handleSubmit] *)

Lemma trimStart_nil_iff (s : jsstring) :
  trimStart s = [] <-> forallb isWhiteSpace s = true.
Proof.
  induction s as [|c t IH]; cbn; [tauto|].
  destruct (isWhiteSpace c); cbn; [exact IH|].
  split; discriminate.
Qed.

Lemma trimStart_head (s : jsstring) (c : N) (t : jsstring) :
  trimStart s = c :: t -> isWhiteSpace c = false.
Proof.
  induction s as [|d u IH]; cbn; [discriminate|].
  destruct (isWhiteSpace d) eqn:Hd; [exact IH|].
  intro Heq. injection Heq as <- _. exact Hd.
Qed.

Lemma forallb_rev {A : Type} (f : A -> bool) (l : list A) :
  forallb f (rev l) = forallb f l.
Proof.
  induction l as [|a l IH]; [reflexivity|].
  cbn. rewrite forallb_app, IH. cbn. rewrite andb_true_r. apply andb_comm.
Qed.

Lemma rev_nil_iff {A : Type} (l : list A) : rev l = [] <-> l = [].
Proof.
  split; intro H; [|now subst].
  apply (f_equal (@rev A)) in H. now rewrite rev_involutive in H.
Qed.

(** [trim] gives the empty string exactly on the strings made of white
    space only. *)
Lemma trim_nil_iff (s : jsstring) :
  trim s = [] <-> forallb isWhiteSpace s = true.
Proof.
  unfold trim, trimEnd. split; intro H.
  - apply rev_nil_iff, trimStart_nil_iff in H. rewrite forallb_rev in H.
    destruct (trimStart s) as [|c t] eqn:Hts.
    + now apply trimStart_nil_iff.
    + cbn in H. rewrite (trimStart_head s c t Hts) in H. discriminate.
  - apply trimStart_nil_iff in H. now rewrite H.
Qed.

(** X4.  [handleSubmit] leaves the call log as it is exactly when every code
    unit of the query is white space (the empty query included) or
    [isLoading] is true; in every other case it adds the one tagged
    query. *)
Theorem submit_calls_nothing_iff :
  forall (E : Type) (onSearch : jsstring -> Completion E) (w : Widget),
    (calls (fst (handleSubmit onSearch w)) = calls w <->
     forallb isWhiteSpace (searchQuery (state w)) = true
     \/ isLoading (state w) = true) /\
    (calls (fst (handleSubmit onSearch w)) = calls w \/
     calls (fst (handleSubmit onSearch w)) =
       calls w
         ++ [taggedQuery (searchScope (state w)) (searchQuery (state w))]).
Proof.
  intros E onSearch w.
  destruct (isLoading (state w)) eqn:Hload.
  - rewrite (handleSubmit_loading onSearch w Hload). cbn. tauto.
  - destruct (forallb isWhiteSpace (searchQuery (state w))) eqn:Hws.
    + apply trim_nil_iff in Hws.
      rewrite (handleSubmit_blank onSearch w Hws). cbn. tauto.
    + assert (Hq : trim (searchQuery (state w)) <> []).
      { intro Hnil. apply trim_nil_iff in Hnil. congruence. }
      rewrite (handleSubmit_accepted onSearch w Hq Hload). cbv zeta.
      assert (Hgrow : forall (l : list jsstring) (x : jsstring),
                 l ++ [x] <> l).
      { intros l x Heq. apply (f_equal (@List.length jsstring)) in Heq.
        rewrite length_app in Heq. cbn in Heq. lia. }
      destruct (onSearch _); cbn [fst calls]; split;
        try (right; reflexivity);
        (split; [intro Heq; now apply Hgrow in Heq
                |intros [Hf|Hf]; discriminate Hf]).
Qed.

(** ** The string sent to the host *)

(** X5.  The string built for [onSearch] determines the scope and the raw
    query it was built from: two states that would send the same string
    have the same scope and the same query. *)
Theorem effectiveQuery_injective :
  forall s1 s2 : State,
    effectiveQuery s1 = effectiveQuery s2 ->
    searchScope s1 = searchScope s2 /\ searchQuery s1 = searchQuery s2.
Proof.
  intros s1 s2. rewrite !effectiveQuery_tagged. unfold taggedQuery.
  destruct (searchScope s1), (searchScope s2); cbn; intro Heq;
    try discriminate Heq;
    (split; [reflexivity|]);
    repeat (injection Heq as Heq); exact Heq.
Qed.

(** Two states that differ only in [isExpanded] send the same string, and
    have the same scope and query. *)
Lemma effectiveQuery_injective_witness :
  let s1 := setSearchQuery (lit "x") (setSearchScope all initialState) in
  let s2 := setIsExpanded true s1 in
  effectiveQuery s1 = effectiveQuery s2 /\
  searchScope s1 = searchScope s2 /\
  searchQuery s1 = searchQuery s2.
Proof.
  intros s1 s2.
  split; [reflexivity|].
  exact (effectiveQuery_injective s1 s2 eq_refl).
Defined.

(** ** Selecting, typing and submitting *)

Lemma handleSubmit_cases {E : Type}
    (onSearch : jsstring -> Completion E) (w : Widget) :
  handleSubmit onSearch w = (w, Settled Fulfilled) \/
  (trim (searchQuery (state w)) <> [] /\ isLoading (state w) = false).
Proof.
  destruct (isLoading (state w)) eqn:Hload.
  - left. now apply handleSubmit_loading.
  - destruct (trim (searchQuery (state w))) as [|c t] eqn:Htrim.
    + left. now apply handleSubmit_blank.
    + right. split; [discriminate|reflexivity].
Qed.

Lemma handleSubmit_accepted_calls {E : Type}
    (onSearch : jsstring -> Completion E) (w : Widget) :
  trim (searchQuery (state w)) <> [] ->
  isLoading (state w) = false ->
  calls (fst (handleSubmit onSearch w)) =
    calls w ++ [taggedQuery (searchScope (state w)) (searchQuery (state w))].
Proof.
  intros Hq Hload. rewrite (handleSubmit_accepted onSearch w Hq Hload).
  cbv zeta. destruct (onSearch _); reflexivity.
Qed.

(** X6.  On a widget that is not loading, choosing a scope, typing a query
    that does not trim to the empty string and submitting makes one call,
    with the tag of the scope chosen and the query typed, in whichever
    order the scope and the query were set and whatever they were before. *)
Theorem select_type_submit_sends :
  forall (E : Type) (onSearch : jsstring -> Completion E) (w : Widget)
         (scope : SearchScope) (value : jsstring),
    isLoading (state w) = false ->
    trim value <> [] ->
    calls (run w [selectScope scope; changeQuery value; submit onSearch])
      = calls w ++ [taggedQuery scope value] /\
    calls (run w [changeQuery value; selectScope scope; submit onSearch])
      = calls w ++ [taggedQuery scope value].
Proof.
  intros E onSearch w scope value Hload Hvalue.
  unfold run. cbn [fold_left step].
  split; rewrite handleSubmit_accepted_calls; try reflexivity;
    try exact Hvalue; exact Hload.
Qed.

(** The submission of ["recipe"] under scope [all]. *)
Lemma select_type_submit_witness :
  let w := run (E := nat) mount [toggleExpand; toggleScopeMenu] in
  (isLoading (state w) = false /\ trim (lit "recipe") <> []) /\
  calls (run w [selectScope all; changeQuery (lit "recipe");
                submit (fun _ => @Returns nat)])
    = [lit "[ALL] recipe"].
Proof.
  intro w.
  assert (Hv : trim (lit "recipe") <> []) by (vm_compute; discriminate).
  split; [split; [reflexivity|exact Hv]|].
  exact (proj1 (select_type_submit_sends nat (fun _ => Returns) w all
                  (lit "recipe") eq_refl Hv)).
Defined.

(** ** Who changes what *)

Lemma step_scope_frame {E : Type} (w : Widget) (op : Op E) :
  isSelectScope op = false ->
  searchScope (state (step w op)) = searchScope (state w).
Proof.
  destruct op as [| |scope|value|onSearch|current target|o];
    cbn [isSelectScope step onState state]; intro Hop;
    try discriminate Hop; try reflexivity.
  - unfold onClickExpand. now destruct (negb _).
  - unfold onClickScopeButton. now destruct (negb _).
  - destruct (handleSubmit_cases onSearch w) as [Hnoop|[Hq Hload]].
    + now rewrite Hnoop.
    + rewrite (handleSubmit_accepted onSearch w Hq Hload). cbv zeta.
      now destruct (onSearch _).
  - apply (handleClickOutside_effect current target (state w)).
  - unfold resumeSubmit. now destruct (awaiting w).
Qed.

Lemma step_calls_frame {E : Type} (w : Widget) (op : Op E) :
  isSubmit op = false -> calls (step w op) = calls w.
Proof.
  destruct op; cbn [isSubmit step onState calls]; intro Hop;
    try discriminate Hop; try reflexivity.
  unfold resumeSubmit. now destruct (awaiting w).
Qed.

Lemma step_loading_frame {E : Type} (w : Widget) (op : Op E) :
  isSubmit op = false -> isSettle op = false ->
  isLoading (state (step w op)) = isLoading (state w).
Proof.
  destruct op as [| |scope|value|onSearch|current target|o];
    cbn [isSubmit isSettle step onState state]; intros Hsub Hset;
    try discriminate; try reflexivity.
  - unfold onClickExpand. now destruct (negb _).
  - unfold onClickScopeButton. now destruct (negb _).
  - apply (handleClickOutside_effect current target (state w)).
Qed.

Lemma step_query_frame {E : Type} (w : Widget) (op : Op E) :
  match op with
  | changeQuery _ => True
  | _ => searchQuery (state (step w op)) = searchQuery (state w)
         \/ searchQuery (state (step w op)) = []
  end.
Proof.
  destruct op as [| |scope|value|onSearch|current target|o];
    cbn [step onState state]; try exact I.
  - left. unfold onClickExpand. now destruct (negb _).
  - left. unfold onClickScopeButton. now destruct (negb _).
  - now left.
  - destruct (handleSubmit_cases onSearch w) as [Hnoop|[Hq Hload]].
    + left. now rewrite Hnoop.
    + rewrite (handleSubmit_accepted onSearch w Hq Hload). cbv zeta.
      destruct (onSearch _); [now right|now left].
  - left. apply (handleClickOutside_effect current target (state w)).
  - unfold resumeSubmit. destruct (awaiting w); [now left|now right].
Qed.

(** X7.  In every state and for every handler: the scope is changed by a
    scope option only; [onSearch] is called by [handleSubmit] only;
    [isLoading] is changed by [handleSubmit] and its resumption only; and
    apart from typing, a handler leaves the query as it is or empties it. *)
Theorem handlers_change_only_their_own :
  forall (E : Type) (w : Widget) (op : Op E),
    (isSelectScope op = false ->
     searchScope (state (step w op)) = searchScope (state w)) /\
    (isSubmit op = false -> calls (step w op) = calls w) /\
    (isSubmit op = false -> isSettle op = false ->
     isLoading (state (step w op)) = isLoading (state w)) /\
    match op with
    | changeQuery _ => True
    | _ => searchQuery (state (step w op)) = searchQuery (state w)
           \/ searchQuery (state (step w op)) = []
    end.
Proof.
  intros E w op.
  split; [apply step_scope_frame|].
  split; [apply step_calls_frame|].
  split; [apply step_loading_frame|apply step_query_frame].
Qed.

(** ** The call log along a run *)

Lemma step_wellTagged {E : Type} (w : Widget) (op : Op E) :
  Forall wellTagged (calls w) -> Forall wellTagged (calls (step w op)).
Proof.
  intro Hlog.
  destruct (isSubmit op) eqn:Hop;
    [|now rewrite step_calls_frame].
  destruct op as [| |scope|value|onSearch|current target|o];
    try discriminate Hop. cbn [step].
  destruct (handleSubmit_cases onSearch w) as [Hnoop|[Hq Hload]].
  - now rewrite Hnoop.
  - rewrite (handleSubmit_accepted_calls onSearch w Hq Hload).
    apply Forall_app. split; [exact Hlog|].
    constructor; [|constructor].
    exists (searchScope (state w)), (searchQuery (state w)).
    split; [reflexivity|exact Hq].
Qed.

(** X8.  After any run of operations from the mounted component, every
    string [onSearch] has been called with is a bracketed scope tag, a
    space and a raw query that does not trim to the empty string. *)
Theorem calls_are_well_tagged :
  forall (E : Type) (ops : list (Op E)),
    Forall wellTagged (calls (run mount ops)).
Proof.
  intros E ops. unfold run.
  assert (Hgen : forall w : Widget,
             Forall wellTagged (calls w) ->
             Forall wellTagged (calls (fold_left step ops w))).
  { induction ops as [|op ops IH]; intros w Hw; [exact Hw|].
    cbn [fold_left]. apply IH. now apply step_wellTagged. }
  apply Hgen. constructor.
Qed.

Lemma step_calls_grow {E : Type} (w : Widget) (op : Op E) :
  exists more : list jsstring,
    calls (step w op) = calls w ++ more /\
    List.length more <= (if isSubmit op then 1 else 0).
Proof.
  destruct (isSubmit op) eqn:Hop.
  - destruct op as [| |scope|value|onSearch|current target|o];
      try discriminate Hop. cbn [step].
    destruct (handleSubmit_cases onSearch w) as [Hnoop|[Hq Hload]].
    + exists []. rewrite Hnoop, app_nil_r. cbn. split; [reflexivity|lia].
    + eexists. split; [now apply handleSubmit_accepted_calls|].
      cbn. lia.
  - exists []. rewrite app_nil_r, step_calls_frame by exact Hop.
    cbn. split; [reflexivity|lia].
Qed.

(** X9.  A run of operations only appends to the call log, from whatever
    component it starts: the log before is a prefix of the log after, and
    the run adds at most one call for each submit in it. *)
Theorem calls_only_grow :
  forall (E : Type) (ops : list (Op E)) (w : Widget),
    exists more : list jsstring,
      calls (run w ops) = calls w ++ more /\
      List.length more <= List.length (filter isSubmit ops).
Proof.
  intros E ops. unfold run.
  induction ops as [|op ops IH]; intro w.
  - exists []. rewrite app_nil_r. cbn. split; [reflexivity|lia].
  - cbn [fold_left filter].
    destruct (IH (step w op)) as (more2 & Heq2 & Hlen2).
    destruct (step_calls_grow w op) as (more1 & Heq1 & Hlen1).
    exists (more1 ++ more2). rewrite Heq2, Heq1, app_assoc.
    split; [reflexivity|].
    rewrite length_app.
    destruct (isSubmit op); cbn [List.length]; lia.
Qed.

(** ** Submissions in flight *)

Lemma step_inFlightIsLoading {E : Type} (w : Widget) (op : Op E) :
  inFlightIsLoading w -> inFlightIsLoading (step w op).
Proof.
  unfold inFlightIsLoading. intro Hinv.
  destruct (isSubmit op) eqn:Hsub.
  - destruct op as [| |scope|value|onSearch|current target|o];
      try discriminate Hsub. cbn [step].
    destruct (handleSubmit_cases onSearch w) as [Hnoop|[Hq Hload]].
    + now rewrite Hnoop.
    + rewrite (handleSubmit_accepted onSearch w Hq Hload). cbv zeta.
      rewrite Hload in Hinv.
      destruct (onSearch _); cbn; [exact Hinv|now rewrite Hinv].
  - destruct (isSettle op) eqn:Hset.
    + destruct op as [| |scope|value|onSearch|current target|o];
        try discriminate Hset. cbn [step]. unfold resumeSubmit.
      destruct (awaiting w) as [|n] eqn:Haw;
        [cbn; now rewrite Haw|].
      cbn. destruct (isLoading (state w)); [|discriminate Hinv].
      now injection Hinv.
    + rewrite (step_loading_frame w op Hsub Hset), <- Hinv.
      destruct op; try discriminate; reflexivity.
Qed.

(** X10.  After any run of operations from the mounted component, at most
    one activation of [handleSubmit] is suspended at its [await], and one is
    exactly when [isLoading] is true: the flag is never left set with
    nothing to clear it, and no second submission starts under it. *)
Theorem in_flight_iff_loading :
  forall (E : Type) (ops : list (Op E)),
    let w := run mount ops in
    inFlightIsLoading w /\
    awaiting w <= 1 /\
    (isLoading (state w) = true <-> awaiting w = 1).
Proof.
  intros E ops w.
  assert (Hinv : inFlightIsLoading w).
  { subst w. unfold run.
    assert (Hgen : forall v : Widget,
               inFlightIsLoading v ->
               inFlightIsLoading (fold_left step ops v)).
    { induction ops as [|op ops IH]; intros v Hv; [exact Hv|].
      cbn [fold_left]. apply IH. now apply step_inFlightIsLoading. }
    apply Hgen. reflexivity. }
  split; [exact Hinv|]. unfold inFlightIsLoading in Hinv.
  destruct (isLoading (state w)); rewrite Hinv;
    repeat split; try lia; try reflexivity; discriminate.
Qed.

(** ** The widget while it is not rendered *)

(** X11.  With [isSummarized] false the component renders nothing and its
    ref is [null]: no click, no typing, no submit and no pointer-down
    changes the component.  A submission that is in flight still resumes,
    and its [finally] block resets the state. *)
Theorem hidden_widget_ignores_interactions :
  forall (E : Type) (w : Widget),
    (forall op : Op E, isSettle op = false -> interact w (false, op) = w) /\
    (forall o : Outcome E,
       awaiting w <> 0 ->
       state (interact w (false, settle o)) = submitFinally (state w)).
Proof.
  intros E w. split.
  - intros op Hop. unfold interact. cbn [fst snd].
    destruct op as [| |scope|value|onSearch|current target|o];
      try discriminate Hop; try reflexivity.
    destruct current as [el|]; cbn; [reflexivity|].
    now apply onState_fixed.
  - intros o Haw. unfold interact. cbn. unfold resumeSubmit.
    destruct (awaiting w); [contradiction|reflexivity].
Qed.

(** ** What a loading widget shows *)

Lemma interact_showsWhatWasSent {E : Type} (w : Widget) (ev : bool * Op E) :
  showsWhatWasSent w -> showsWhatWasSent (interact w ev).
Proof.
  destruct ev as [vis op]. intro Hinv.
  destruct (isLoading (state w)) eqn:Hload.
  - destruct (isSettle op) eqn:Hset.
    + destruct op; try discriminate Hset.
      unfold interact. cbn. unfold resumeSubmit.
      destruct (awaiting w); [exact Hinv|].
      unfold showsWhatWasSent. cbn. discriminate.
    + now rewrite (interact_loading w vis op Hload Hset).
  - unfold interact. destruct (deliverable _ _ _); [|exact Hinv].
    cbn [snd].
    destruct (isSubmit op) eqn:Hsub.
    + destruct op as [| |scope|value|onSearch|current target|o];
        try discriminate Hsub. cbn [step].
      destruct (handleSubmit_cases onSearch w) as [Hnoop|[Hq _]].
      * now rewrite Hnoop.
      * rewrite (handleSubmit_accepted onSearch w Hq Hload). cbv zeta.
        unfold showsWhatWasSent.
        destruct (onSearch _); cbn [fst state calls].
        -- cbn. discriminate.
        -- intros _. exists (calls w).
           now rewrite !effectiveQuery_tagged.
    + destruct (isSettle op) eqn:Hset.
      * destruct op; try discriminate Hset. cbn [step]. unfold resumeSubmit.
        destruct (awaiting w); [exact Hinv|].
        unfold showsWhatWasSent. cbn. discriminate.
      * unfold showsWhatWasSent.
        rewrite (step_loading_frame w op Hsub Hset), Hload. discriminate.
Qed.

(** X12.  Through the rendered document, from the mounted component: in
    every state with [isLoading] true, the last string [onSearch] was called
    with is the tagged query of the scope and the query the state holds.
    What the widget shows while loading is what was sent. *)
Theorem loading_shows_what_was_sent :
  forall (E : Type) (evs : list (bool * Op E)),
    let w := interactAll mount evs in
    isLoading (state w) = true ->
    exists earlier : list jsstring,
      calls w =
        earlier
          ++ [taggedQuery (searchScope (state w)) (searchQuery (state w))].
Proof.
  intros E evs w.
  assert (Hinv : showsWhatWasSent w).
  { subst w. unfold interactAll.
    assert (Hgen : forall v : Widget,
               showsWhatWasSent v ->
               showsWhatWasSent (fold_left interact evs v)).
    { induction evs as [|ev evs IH]; intros v Hv; [exact Hv|].
      cbn [fold_left]. apply IH. now apply interact_showsWhatWasSent. }
    apply Hgen. intro H. discriminate H. }
  intro Hload.
  destruct (Hinv Hload) as [earlier Heq].
  exists earlier. now rewrite Heq, effectiveQuery_tagged.
Qed.

(** A submission under scope [domain]; the clicks and the typing attempted
    while it is in flight do not get through. *)
Lemma loading_shows_what_was_sent_witness :
  let evs : list (bool * Op nat) :=
    [(true, toggleExpand); (true, toggleScopeMenu);
     (true, selectScope domain); (true, changeQuery (lit "recipe"));
     (true, submit (fun _ => Returns));
     (true, changeQuery (lit "other")); (true, selectScope all)] in
  let w := interactAll mount evs in
  isLoading (state w) = true /\
  searchQuery (state w) = lit "recipe" /\
  exists earlier : list jsstring,
    calls w = earlier ++ [lit "[DOMAIN] recipe"].
Proof.
  intros evs w.
  split; [reflexivity|].
  split; [reflexivity|].
  exact (loading_shows_what_was_sent nat evs eq_refl).
Defined.

(** ** The scope menu *)

(** X13.  The scope menu lists every scope exactly once and highlights the
    option of the current scope and no other.  A click on an option makes
    it the highlighted one and takes the menu out of the next render. *)
Theorem menu_offers_every_scope :
  forall (s : State) (scope : SearchScope),
    List.length (filter (fun o => scopeEq (fst o) scope) (menuOptions s)) = 1 /\
    (In (scope, true) (menuOptions s) <-> scope = searchScope s) /\
    In (scope, true) (menuOptions (onClickScopeOption scope s)) /\
    scopeMenu (onClickScopeOption scope s) = None.
Proof.
  intros [ex q sc menu ld] scope.
  split; [destruct scope; reflexivity|].
  split; [|split; [destruct scope; cbn; tauto|reflexivity]].
  destruct scope, sc; cbn; split; intro H;
    try reflexivity; try discriminate H; try tauto;
    repeat (destruct H as [H|H]; try discriminate H); contradiction.
Qed.



(** ** The effects *)

Lemma removeEventListener_only (l : Listener) :
  removeEventListener l [l] = [].
Proof.
  unfold removeEventListener, sameListener. cbn.
  now rewrite Nat.eqb_refl.
Qed.

Lemma mountInstance_wired (isSummarized : bool) :
  wired (mountInstance isSummarized).
Proof. split; reflexivity. Qed.

Lemma commit_wired (i : Instance) (w' : Widget) (isSummarized : bool) :
  wired i -> wired (commit i w' isSummarized).
Proof.
  intros [Hone Hfresh Hdl Hde]. unfold commit.
  destruct (Bool.eqb (depLoading i) (isLoading (state w'))) eqn:Hsame;
    cbn [negb].
  - apply Bool.eqb_prop in Hsame.
    split; cbn; try reflexivity; [exact Hone|congruence].
  - rewrite Hone, removeEventListener_only.
    split; reflexivity.
Qed.

Lemma dispatchMousedown_wired (i : Instance)
    (current : option HTMLDivElement) (target : Node) :
  wired i ->
  dispatchMousedown (listeners i) current target (state (widget i))
    = handleClickOutside current target (state (widget i)).
Proof.
  intros [Hone Hfresh _ _]. rewrite Hone.
  unfold dispatchMousedown, callListener, handleClickOutside. cbn.
  now rewrite Hfresh.
Qed.

Lemma deliver_wired {E : Type} (i : Instance) (op : Op E) :
  wired i -> deliver i op = interact (widget i) (isSummarizedProp i, op).
Proof.
  intro Hw. destruct op; try reflexivity.
  unfold deliver, interact. cbn [fst snd].
  destruct (deliverable _ _ _); [|reflexivity].
  cbn [step]. unfold onState. now rewrite dispatchMousedown_wired.
Qed.

Lemma handleEvent_wired {E : Type} (i : Instance) (ev : Event E) :
  wired i -> wired (handleEvent i ev).
Proof.
  intro Hw. destruct ev; now apply commit_wired.
Qed.

Lemma runInstance_wired {E : Type} (evs : list (Event E)) (i : Instance) :
  wired i -> wired (runInstance i evs).
Proof.
  revert i. unfold runInstance.
  induction evs as [|ev evs IH]; intros i Hw; [exact Hw|].
  cbn [fold_left]. apply IH. now apply handleEvent_wired.
Qed.

(** X15.  After any sequence of interactions and re-renders of a mounted
    component, exactly one [mousedown] listener of the component is on the
    document, it is the one the pending cleanup removes, and the [isLoading]
    it closed over is the current one; unmounting leaves none. *)
Theorem one_fresh_listener :
  forall (E : Type) (isSummarized : bool) (evs : list (Event E)),
    let i := runInstance (mountInstance isSummarized) evs in
    listeners i = [cleanup i] /\
    capturedLoading (cleanup i) = isLoading (state (widget i)) /\
    unmountInstance i = [].
Proof.
  intros E isSummarized evs i.
  destruct (runInstance_wired evs _ (mountInstance_wired isSummarized))
    as [Hone Hfresh _ _].
  fold i in Hone, Hfresh.
  split; [exact Hone|]. split; [exact Hfresh|].
  unfold unmountInstance. rewrite Hone. apply removeEventListener_only.
Qed.

(** X16.  A [mousedown] dispatched to the registered listeners does to the
    state what [handleClickOutside] does with the current [isLoading], after
    any sequence of interactions and re-renders: the listener never acts on
    an [isLoading] that is out of date, and every interaction has the effect
    of its handler run on the latest render. *)
Theorem registered_listener_is_current :
  forall (E : Type) (isSummarized : bool) (evs : list (Event E))
         (current : option HTMLDivElement) (target : Node) (op : Op E),
    let i := runInstance (mountInstance isSummarized) evs in
    dispatchMousedown (listeners i) current target (state (widget i))
      = handleClickOutside current target (state (widget i)) /\
    widget (handleEvent i (interaction op))
      = interact (widget i) (isSummarizedProp i, op).
Proof.
  intros E isSummarized evs current target op i.
  pose proof (runInstance_wired evs _ (mountInstance_wired isSummarized))
    as Hw.
  fold i in Hw. split.
  - now apply dispatchMousedown_wired.
  - cbn [handleEvent]. rewrite (deliver_wired i op Hw).
    unfold commit. now destruct (if negb _ then _ else _).
Qed.

Lemma hidden_stays_collapsed {E : Type} (w : Widget) (op : Op E) :
  isExpanded (state w) = false ->
  isExpanded (state (interact w (false, op))) = false.
Proof.
  intro Hex. destruct (isSettle op) eqn:Hset.
  - destruct op; try discriminate Hset.
    unfold interact. cbn. unfold resumeSubmit.
    now destruct (awaiting w).
  - unfold interact. cbn [fst snd].
    destruct op as [| |scope|value|onSearch|current target|o];
      try discriminate Hset; try exact Hex.
    destruct current as [el|]; cbn; exact Hex.
Qed.

(** X17.  After any sequence of interactions and re-renders, an event calls
    [focus()] on the input once if it takes [isExpanded] from false to true,
    and not at all otherwise: closing, typing, choosing a scope, submitting,
    the end of a submission and a re-render never move the focus. *)
Theorem focus_exactly_on_expand :
  forall (E : Type) (isSummarized : bool) (evs : list (Event E))
         (ev : Event E),
    let i := runInstance (mountInstance isSummarized) evs in
    let i' := handleEvent i ev in
    focusCalls i' =
      focusCalls i
        + (if negb (isExpanded (state (widget i)))
              && isExpanded (state (widget i'))
           then 1 else 0).
Proof.
  intros E isSummarized evs ev i i'.
  pose proof (runInstance_wired evs _ (mountInstance_wired isSummarized))
    as Hw.
  fold i in Hw. destruct Hw as [_ _ _ Hde].
  assert (Hwid : widget i' =
                 match ev with
                 | interaction op => deliver i op
                 | rerender _ => widget i
                 end).
  { subst i'. destruct ev; cbn [handleEvent]; unfold commit;
      now destruct (if negb _ then _ else _). }
  assert (Hfocus : focusCalls i' =
                   if negb (Bool.eqb (depExpanded i)
                                     (isExpanded (state (widget i'))))
                   then focusEffect
                          (match ev with
                           | interaction _ => isSummarizedProp i
                           | rerender p => p
                           end)
                          (state (widget i')) (focusCalls i)
                   else focusCalls i).
  { rewrite Hwid. subst i'. destruct ev; cbn [handleEvent]; unfold commit;
      now destruct (if negb (Bool.eqb (depLoading i) _) then _ else _). }
  rewrite Hfocus, Hde. unfold focusEffect.
  destruct (isExpanded (state (widget i))) eqn:Hex;
    destruct (isExpanded (state (widget i'))) eqn:Hex'; cbn; try lia.
  destruct ev as [op|p].
  - destruct (isSummarizedProp i) eqn:Hp; [lia|].
    exfalso. rewrite Hwid in Hex'.
    assert (Hw' : wired i)
      by (apply runInstance_wired, mountInstance_wired).
    rewrite (deliver_wired i op Hw'), Hp in Hex'.
    rewrite (hidden_stays_collapsed (widget i) op Hex) in Hex'.
    discriminate Hex'.
  - exfalso. rewrite Hwid in Hex'. congruence.
Qed.

End FloatingSearch.
